(** * The [Command] base class of the tickets bot

    A shallow embedding of [src/modules/commands/command.js]: the class
    constructor and its three response helpers ([deferResponse],
    [sendResponse], [editResponse]).

    The class computes nothing on its own: it reads properties of a
    descriptor and calls collaborators (the command manager, the plugin
    list, the logger, the REST client).  The embedding therefore records
    every collaborator call as an event of a trace, and lets a collaborator
    that can throw answer with an outcome.  *)

From Stdlib Require Import Sorted.
From stdpp Require Import gmap strings list pretty.

Set Warnings "-register-all".

Local Open Scope Z_scope.

(** ** JavaScript values *)

(** The values a descriptor, an interaction field or a message content can
    take: what JSON can write, and [undefined].  Numbers are the integers
    among the JavaScript numbers.  Functions, symbols and bigints are left
    out. *)
Inductive JSValue : Type :=
  | JUndefined
  | JNull
  | JBool (b : bool)
  | JNum (n : Z)
  | JStr (s : string)
  | JArray (items : list JSValue)
  | JObject (props : gmap string JSValue).

(** The [typeof] operator. *)
Definition typeof (v : JSValue) : string :=
  match v with
  | JUndefined => "undefined"
  | JNull => "object"
  | JBool _ => "boolean"
  | JNum _ => "number"
  | JStr _ => "string"
  | JArray _ => "object"
  | JObject _ => "object"
  end.

(** ToBoolean, as [!x] and [c ? a : b] apply it. *)
Definition truthy (v : JSValue) : bool :=
  match v with
  | JUndefined | JNull => false
  | JBool b => b
  | JNum n => negb (n =? 0)
  | JStr s => negb (String.eqb s EmptyString)
  | JArray _ | JObject _ => true
  end.

(** A value that really is an object (a plain object or an array), as
    opposed to a primitive; [null] is a primitive although its [typeof] is
    ["object"]. *)
Definition is_object (v : JSValue) : bool :=
  match v with
  | JArray _ | JObject _ => true
  | _ => false
  end.

(** ToString, as a template literal applies it to a substitution. *)
Fixpoint js_to_string (v : JSValue) : string :=
  match v with
  | JUndefined => "undefined"
  | JNull => "null"
  | JBool true => "true"
  | JBool false => "false"
  | JNum n => pretty n
  | JStr s => s
  | JArray items =>
      let element x :=
        match x with
        | JUndefined | JNull => EmptyString
        | _ => js_to_string x
        end in
      String.concat "," (map element items)
  | JObject _ => "[object Object]"
  end.

(** ** Thrown values *)

(** What a [throw] carries: a [TypeError] raised by the language or by this
    file, or whatever value a collaborator threw. *)
Inductive Thrown : Type :=
  | TypeError (message : string)
  | Raised (value : JSValue).

Inductive Outcome (A : Type) : Type :=
  | Returns (a : A)
  | Throws (e : Thrown).
Arguments Returns {A} a.
Arguments Throws {A} e.

(** ** Collaborators and the events they see *)

Module Plugin.
(** Modelled from the spec: the Plugin class ([../plugins/plugin]) is not
    among the sources.  Of a plugin this file reads one property,
    [commands], "the plugin's declared command list": a list of command
    names, or nothing when the plugin declares none. *)
Record t : Type := { name : string; commands : option (list string) }.
End Plugin.

(** [this], as the constructor fills it in.  The two first fields of the
    class, [client] and [manager], are the constructor's own argument and
    are not repeated here.  [plugin] is [None] while the property is not
    set, [Some None] when it is set to [undefined]. *)
Record Command : Type := {
  name : JSValue;
  description : JSValue;
  staff_only : JSValue;
  permissions : JSValue;
  options : JSValue;
  internal : JSValue;
  plugin : option (option Plugin.t)
}.

(** The REST resources this file addresses through [client.api]. *)
Inductive Route : Type :=
  | ApplicationCommands (application_id : string)
  | InteractionCallback (id token : JSValue)
  | InteractionMessages (id token : JSValue).

Inductive Method : Type := POST | PATCH.

(** One event per call to a collaborator, with the arguments of the call. *)
Inductive Event : Type :=
  | PluginsFind (name : JSValue)
  | ManagerCheck (data : JSValue)
  | ManagerRegister (this : Command)
  | LogError (e : Thrown)
  | LogCommands (message : string)
  | CreateMessage (channel_id content : JSValue)
  | Api (method : Method) (route : Route) (options : JSValue).

Definition is_register (ev : Event) : bool :=
  match ev with
  | ManagerRegister _ => true
  | _ => false
  end.

Definition is_network (ev : Event) : bool :=
  match ev with
  | Api _ _ _ => true
  | _ => false
  end.

Definition is_log_error (ev : Event) : bool :=
  match ev with
  | LogError _ => true
  | _ => false
  end.

Definition is_log_commands (ev : Event) : bool :=
  match ev with
  | LogCommands _ => true
  | _ => false
  end.

(** ** Computations: a trace of events and an outcome *)

Definition M (A : Type) : Type := list Event * Outcome A.

Definition trace {A} (m : M A) : list Event := m.1.
Definition outcome {A} (m : M A) : Outcome A := m.2.

#[export] Instance M_ret : MRet M := fun A a => ([], Returns a).

#[export] Instance M_bind : MBind M := fun A B f m =>
  match m with
  | (t, Returns a) => let '(t', o) := f a in (t ++ t', o)
  | (t, Throws e) => (t, Throws e)
  end.

Definition throw {A} (e : Thrown) : M A := ([], Throws e).

(** A call to a collaborator that returns nothing of interest. *)
Definition emit (ev : Event) : M unit := ([ev], Returns ()).

(** A call to a collaborator that answers with [o]. *)
Definition call {A} (ev : Event) (o : Outcome A) : M A := ([ev], o).

(** The body of a [try]: its events happen, its outcome is handed to the
    [catch] clause or to the code after the statement. *)
Definition attempt {A} (m : M A) : M (Outcome A) := (trace m, Returns (outcome m)).

(** The command manager ([client.commands]): [check] validates a descriptor
    and [register] stores a command; either may throw. *)
Record CommandManager : Type := {
  check : JSValue → Outcome unit;
  register : Command → Outcome unit
}.

(** The part of the Discord client this file reads: [client.commands],
    [client.plugins.plugins] and [client.user.id].  [client.log] and
    [client.api] only receive calls, which the trace records; their methods
    return nothing this file looks at. *)
Record Client : Type := {
  commands : CommandManager;
  plugins : list Plugin.t;
  user_id : string
}.

(** ** Property reads *)

(** [v.key] for the keys this file reads off a descriptor ([name],
    [description], [staff_only], [permissions], [options], [internal]): an
    own property of a plain object, [undefined] where there is none (no
    array and no primitive has one of these), and a [TypeError] on [null]
    and [undefined]. *)
Definition get_property (v : JSValue) (key : string) : M JSValue :=
  match v with
  | JObject props => mret (default JUndefined (props !! key))
  | JNull =>
      throw (TypeError ("Cannot read properties of null (reading '" +:+ key +:+ "')"))
  | JUndefined =>
      throw (TypeError ("Cannot read properties of undefined (reading '" +:+ key +:+ "')"))
  | _ => mret JUndefined
  end.

(** An interaction is an object; its properties are read with [field]. *)
Definition Interaction : Type := gmap string JSValue.

Definition field (o : gmap string JSValue) (key : string) : JSValue :=
  default JUndefined (o !! key).

(** [p.commands?.includes(name)]: [undefined] (falsy) when the plugin has no
    command list, else whether the list holds a string equal to [name]. *)
Definition declares (name : JSValue) (p : Plugin.t) : bool :=
  match Plugin.commands p with
  | Some list =>
      match name with
      | JStr s => bool_decide (s ∈ list)
      | _ => false
      end
  | None => false
  end.

(** [client.plugins.plugins.find(predicate)]. *)
Definition plugins_find (client : Client) (name : JSValue) : M (option Plugin.t) :=
  call (PluginsFind name) (Returns (List.find (declares name) (plugins client))).

Definition double_quote : string := String (Ascii.ascii_of_nat 34%nat) EmptyString.

(** ** The class *)

Section Command.

(** The two helpers imported from [../../utils/discord], whose source is
    not part of this file: [flags(secret)] and the asynchronous
    [createMessage(client, channel_id, content)], which may reject. *)
Variable flags : bool → JSValue.
Variable createMessage : Client → JSValue → JSValue → Outcome JSValue.

(** [new Command(client, data)].  The outcome is the constructed object,
    or what the constructor threw.  The [catch] clause returns what
    [client.log.error] returns; the logger returns no object, so [new]
    yields [this] there too. *)
Definition constructor (client : Client) (data : JSValue) : M Command :=
  let manager := commands client in
  if negb (String.eqb (typeof data) "object") then
    throw (TypeError ("Expected type of data to be an object, got " +:+ typeof data))
  else
    name ← get_property data "name";
    description ← get_property data "description";
    staff_only ← get_property data "staff_only";
    permissions ← get_property data "permissions";
    options ← get_property data "options";
    internal ← get_property data "internal";
    plugin ← (if negb (truthy internal)
              then found ← plugins_find client name; mret (Some found)
              else mret None);
    let this := {| name := name; description := description;
                   staff_only := staff_only; permissions := permissions;
                   options := options; internal := internal;
                   plugin := plugin |} in
    call (ManagerCheck data) (check manager data);;
    registered ← attempt (call (ManagerRegister this) (register manager this));
    match registered with
    | Throws e =>
        emit (LogError e);;
        mret this
    | Returns _ =>
        emit (Api POST (ApplicationCommands (user_id client))
                  (JObject {[ "data" := data ]}));;
        let internal := if truthy internal then "internal " else EmptyString in
        emit (LogCommands ("Loaded " +:+ internal +:+ double_quote
                           +:+ js_to_string name +:+ double_quote +:+ " command"));;
        mret this
    end.

(** The three helpers below are [async]: the outcome [Returns ()] stands
    for a promise fulfilled with [undefined], [Throws e] for one rejected
    with [e]. *)

(** [deferResponse(interaction, secret)]. *)
Definition deferResponse (client : Client) (interaction : Interaction)
    (secret : bool) : M unit :=
  emit (Api POST
          (InteractionCallback (field interaction "id") (field interaction "token"))
          (JObject {[ "data" :=
             JObject (<[ "type" := JNum 5 ]> (<[ "flags" := flags secret ]> ∅)) ]})).

(** [sendResponse(interaction, content, secret)].  In the first branch
    the [await] on [createMessage] comes before the call to [post]; a
    rejection there rejects the whole call. *)
Definition sendResponse (client : Client) (interaction : Interaction)
    (content : JSValue) (secret : bool) : M unit :=
  if String.eqb (typeof content) "object" then
    message ← call (CreateMessage (field interaction "channel_id") content)
                   (createMessage client (field interaction "channel_id") content);
    emit (Api POST
            (InteractionCallback (field interaction "id") (field interaction "token"))
            (JObject {[ "data" :=
               JObject (<[ "type" := JNum 4 ]> (<[ "flags" := flags secret ]>
                       (<[ "data" := message ]> ∅))) ]}))
  else
    emit (Api POST
            (InteractionCallback (field interaction "id") (field interaction "token"))
            (JObject {[ "data" :=
               JObject (<[ "type" := JNum 4 ]> (<[ "flags" := flags secret ]>
                       (<[ "content" := content ]> ∅))) ]})).

(** [editResponse(interaction, content)]. *)
Definition editResponse (client : Client) (interaction : Interaction)
    (content : JSValue) : M unit :=
  if String.eqb (typeof content) "object" then
    emit (Api PATCH
            (InteractionMessages (field interaction "id") (field interaction "token"))
            (JObject {[ "embeds" := content ]}))
  else
    emit (Api PATCH
            (InteractionMessages (field interaction "id") (field interaction "token"))
            (JObject {[ "content" := content ]})).

End Command.

(** ** The steps of the constructor *)

(** Step (a), the reverse lookup of the owning plugin, as [this] shows it. *)
Definition resolution (this : Command) : list Event :=
  if truthy (internal this) then [] else [PluginsFind (name this)].

(** Step (d), the publication of the descriptor. *)
Definition publish (client : Client) (data : JSValue) : Event :=
  Api POST (ApplicationCommands (user_id client)) (JObject {[ "data" := data ]}).

(** Step (e), the confirmation line. *)
Definition confirmation (this : Command) : Event :=
  LogCommands ("Loaded " +:+ (if truthy (internal this) then "internal " else EmptyString)
               +:+ double_quote +:+ js_to_string (name this) +:+ double_quote
               +:+ " command").


(** ** The ephemeral flag *)

(** Modelled from the spec: the helper [flags] of [../../utils/discord] is
    not among the sources.  The spec has "a boolean [secret] maps to a
    platform-specific bit-flag value" and "an ephemeral flag derived from
    [secret]", and leaves the bit to the platform: the value is a bit field
    in which bit [ephemeral_bit] is set exactly when [secret] holds. *)
Definition flags_spec (ephemeral_bit : N) (secret : bool) : JSValue :=
  JNum (if secret then Z.shiftl 1 (Z.of_N ephemeral_bit) else 0).

(** Whether a [flags] value carries the ephemeral flag. *)
Definition carries_ephemeral (ephemeral_bit : N) (v : JSValue) : bool :=
  match v with
  | JNum n => Z.testbit n (Z.of_N ephemeral_bit)
  | _ => false
  end.

(** ** Sample inputs *)

Module Sample.

Definition accepting : CommandManager :=
  {| check := λ _, Returns (); register := λ _, Returns () |}.

Definition invalid : Thrown := Raised (JStr "invalid command").
Definition conflict : Thrown := Raised (JStr "command already registered").

Definition rejecting : CommandManager :=
  {| check := λ _, Throws invalid; register := λ _, Returns () |}.

Definition conflicting : CommandManager :=
  {| check := λ _, Returns (); register := λ _, Throws conflict |}.

Definition music : Plugin.t :=
  {| Plugin.name := "music"; Plugin.commands := Some ["play"; "stop"] |}.

Definition quiet : Plugin.t :=
  {| Plugin.name := "quiet"; Plugin.commands := None |}.

Definition client (manager : CommandManager) : Client :=
  {| commands := manager; plugins := [quiet; music]; user_id := "1234" |}.

(** A command a plugin declares. *)
Definition play : JSValue :=
  JObject (<[ "name" := JStr "play" ]>
          (<[ "description" := JStr "Play a song" ]>
          (<[ "internal" := JBool false ]> ∅))).

Definition play_command : Command :=
  {| name := JStr "play"; description := JStr "Play a song";
     staff_only := JUndefined; permissions := JUndefined;
     options := JUndefined; internal := JBool false;
     plugin := Some (Some music) |}.

(** A command of the bot itself. *)
Definition close : JSValue :=
  JObject (<[ "name" := JStr "close" ]>
          (<[ "description" := JStr "Close a ticket" ]>
          (<[ "internal" := JBool true ]> ∅))).

Definition close_command : Command :=
  {| name := JStr "close"; description := JStr "Close a ticket";
     staff_only := JUndefined; permissions := JUndefined;
     options := JUndefined; internal := JBool true;
     plugin := None |}.

Definition interaction : Interaction :=
  <[ "id" := JStr "77" ]> (<[ "token" := JStr "tok" ]>
  (<[ "channel_id" := JStr "5" ]> ∅)).

Definition callback : Route := InteractionCallback (JStr "77") (JStr "tok").

Definition embed : JSValue :=
  JObject {[ "embed" := JObject {[ "title" := JStr "Ticket" ]} ]}.

Definition flags : bool → JSValue := flags_spec 6.

(** A formatter that wraps the content, and one that rejects. *)
Definition createMessage (client : Client) (channel_id content : JSValue)
    : Outcome JSValue :=
  Returns (JObject {[ "embeds" := JArray [content] ]}).

End Sample.

(** ** The abstract hook *)

(** [execute(data, interaction)]: an [async] method with an empty body,
    which subclasses override. *)
Definition execute (data interaction : JSValue) : M unit := mret ().

Definition is_formatter (ev : Event) : bool :=
  match ev with
  | CreateMessage _ _ => true
  | _ => false
  end.

(** ** Edge inputs *)

Module Edge.

(** A descriptor with a description and no name. *)
Definition nameless : JSValue :=
  JObject (<[ "description" := JStr "No name" ]> ∅).

Definition nameless_command : Command :=
  {| name := JUndefined; description := JStr "No name";
     staff_only := JUndefined; permissions := JUndefined;
     options := JUndefined; internal := JUndefined;
     plugin := Some None |}.

(** A descriptor with every property the constructor reads, and one more. *)
Definition full : JSValue :=
  JObject (<[ "name" := JStr "stop" ]>
          (<[ "description" := JStr "Stop the song" ]>
          (<[ "staff_only" := JBool true ]>
          (<[ "permissions" := JArray [JStr "MANAGE_GUILD"] ]>
          (<[ "options" := JArray [] ]>
          (<[ "internal" := JNum 0 ]>
          (<[ "aliases" := JArray [JStr "halt"] ]> ∅))))))).

(** A second plugin that declares [play], listed after [Sample.music]. *)
Definition radio : Plugin.t :=
  {| Plugin.name := "radio"; Plugin.commands := Some ["play"] |}.

Definition client (manager : CommandManager) : Client :=
  {| commands := manager; plugins := [Sample.quiet; Sample.music; radio];
     user_id := "1234" |}.

Definition play_found : Command :=
  {| name := JStr "play"; description := JStr "Play a song";
     staff_only := JUndefined; permissions := JUndefined;
     options := JUndefined; internal := JBool false;
     plugin := Some (Some Sample.music) |}.

Definition unavailable : Thrown := Raised (JStr "unknown channel").

(** A formatter that rejects. *)
Definition createMessage (client : Client) (channel_id content : JSValue)
    : Outcome JSValue :=
  Throws unavailable.

(** The sample interaction with fields the helpers do not read. *)
Definition interaction : Interaction :=
  <[ "type" := JNum 2 ]> (<[ "guild_id" := JStr "9" ]> Sample.interaction).

End Edge.

(** ** Lemmas on the constructor *)

(** Membership of an event in an explicit trace: [absent H] refutes a
    hypothesis [H : ev ∈ trace] or draws the equalities it forces, [present]
    proves a goal [ev ∈ trace]. *)
Ltac absent H :=
  simpl in H; repeat (apply elem_of_cons in H as [H|H]);
  solve [congruence | inversion H].


Lemma constructor_primitive client data :
  is_object data = false → trace (constructor client data) = [].
Proof. destruct data; simpl; intros H; try discriminate H; reflexivity. Qed.

Lemma constructor_non_object client data :
  is_object data = false → ∃ e, outcome (constructor client data) = Throws e.
Proof. destruct data; simpl; intros H; try discriminate H; eexists; reflexivity. Qed.

(** On an object the six property reads succeed, and the run is decided by
    what [check] and [register] answer. *)
Lemma constructor_run client data :
  is_object data = true →
  ∃ this : Command,
    get_property data "name" = mret (name this) ∧
    get_property data "internal" = mret (internal this) ∧
    plugin this = (if truthy (internal this) then None
                   else Some (List.find (declares (name this)) (plugins client))) ∧
    constructor client data =
      match check (commands client) data with
      | Throws e => (resolution this ++ [ManagerCheck data], Throws e)
      | Returns _ =>
          match register (commands client) this with
          | Throws e =>
              (resolution this ++ [ManagerCheck data; ManagerRegister this; LogError e],
               Returns this)
          | Returns _ =>
              (resolution this ++ [ManagerCheck data; ManagerRegister this;
                                   publish client data; confirmation this],
               Returns this)
          end
      end.
Proof.
  intros Hobj.
  destruct data as [| | | | |items|props]; try discriminate Hobj.
  - exists {| name := JUndefined; description := JUndefined; staff_only := JUndefined;
              permissions := JUndefined; options := JUndefined; internal := JUndefined;
              plugin := Some (List.find (declares JUndefined) (plugins client)) |}.
    repeat split.
    unfold constructor, resolution, confirmation, publish; simpl.
    destruct (check (commands client) (JArray items)); [|reflexivity].
    destruct (register (commands client) _); reflexivity.
  - set (i := default JUndefined (props !! "internal")).
    set (n := default JUndefined (props !! "name")).
    exists {| name := n;
              description := default JUndefined (props !! "description");
              staff_only := default JUndefined (props !! "staff_only");
              permissions := default JUndefined (props !! "permissions");
              options := default JUndefined (props !! "options");
              internal := i;
              plugin := if truthy i then None
                        else Some (List.find (declares n) (plugins client)) |}.
    repeat split.
    unfold constructor, resolution, confirmation, publish; simpl.
    fold i n.
    destruct (truthy i); simpl;
      (destruct (check (commands client) (JObject props)); [|reflexivity]);
      destruct (register (commands client) _); reflexivity.
Qed.

(** A call to [register] in the trace pins down the whole run. *)
Lemma constructor_registering client data this :
  ManagerRegister this ∈ trace (constructor client data) →
  constructor client data =
    match register (commands client) this with
    | Throws e =>
        (resolution this ++ [ManagerCheck data; ManagerRegister this; LogError e],
         Returns this)
    | Returns _ =>
        (resolution this ++ [ManagerCheck data; ManagerRegister this;
                             publish client data; confirmation this],
         Returns this)
    end.
Proof.
  intros Hin.
  destruct (is_object data) eqn:Hobj.
  - destruct (constructor_run client data Hobj) as (this0 & _ & _ & _ & Hrun).
    rewrite Hrun in Hin |- *. clear Hrun.
    unfold resolution, trace in Hin.
    destruct (check (commands client) data).
    + assert (this = this0) as ->; [|reflexivity].
      destruct (register (commands client) this0), (truthy (internal this0)); absent Hin.
    + exfalso.
      destruct (truthy (internal this0)); absent Hin.
  - rewrite (constructor_primitive _ _ Hobj) in Hin. set_solver.
Qed.

Lemma filter_resolution (keep : Event → bool) this :
  (∀ n, keep (PluginsFind n) = false) → List.filter keep (resolution this) = [].
Proof.
  intros Hkeep. unfold resolution.
  destruct (truthy (internal this)); simpl; [|rewrite Hkeep]; reflexivity.
Qed.

(** ** The constructor *)

(** C1.  On a descriptor that is not an object ([null], a string, a number,
    a boolean, [undefined]) the constructor throws a [TypeError] and has
    called nothing before: the trace is empty, so neither [manager.check]
    nor [manager.register] nor the REST client has been reached. *)
Theorem constructor_non_object_type_error client data :
  is_object data = false →
  ∃ message, constructor client data = ([], Throws (TypeError message)).
Proof.
  destruct data; simpl; intros H; try discriminate H; eexists; reflexivity.
Qed.

Lemma constructor_non_object_type_error_witness :
  (∃ message,
     constructor (Sample.client Sample.accepting) JNull = ([], Throws (TypeError message))) ∧
  (∃ message,
     constructor (Sample.client Sample.accepting) (JStr "x") = ([], Throws (TypeError message))) ∧
  (∃ message,
     constructor (Sample.client Sample.accepting) (JNum 42) = ([], Throws (TypeError message))).
Proof.
  repeat split.
  - apply (constructor_non_object_type_error (Sample.client Sample.accepting) JNull).
    reflexivity.
  - apply (constructor_non_object_type_error (Sample.client Sample.accepting) (JStr "x")).
    reflexivity.
  - apply (constructor_non_object_type_error (Sample.client Sample.accepting) (JNum 42)).
    reflexivity.
Defined.

(** C2.  When the call [manager.register(this)] made by the constructor
    throws [e], the constructor still returns the object, and the logger's
    [error] method is called exactly once, with [e]. *)
Theorem constructor_register_failure_logged client data this e :
  ManagerRegister this ∈ trace (constructor client data) →
  register (commands client) this = Throws e →
  outcome (constructor client data) = Returns this ∧
  List.filter is_log_error (trace (constructor client data)) = [LogError e].
Proof.
  intros Hin Hreg.
  rewrite (constructor_registering _ _ _ Hin), Hreg.
  split; [reflexivity|].
  unfold trace; simpl.
  rewrite List.filter_app, filter_resolution; reflexivity.
Qed.

Lemma constructor_register_failure_logged_witness :
  outcome (constructor (Sample.client Sample.conflicting) Sample.play)
    = Returns Sample.play_command ∧
  List.filter is_log_error (trace (constructor (Sample.client Sample.conflicting) Sample.play))
    = [LogError Sample.conflict].
Proof.
  apply (constructor_register_failure_logged
           (Sample.client Sample.conflicting) Sample.play Sample.play_command
           Sample.conflict).
  - vm_compute. do 2 apply list_elem_of_further. apply list_elem_of_here.
  - reflexivity.
Defined.

(** C9.  When [manager.register(this)] throws [e], the constructor returns
    at once: the trace ends with that call followed by the one error log,
    and holds neither a network call nor a confirmation line. *)
Theorem constructor_register_failure_returns_early client data this e :
  ManagerRegister this ∈ trace (constructor client data) →
  register (commands client) this = Throws e →
  outcome (constructor client data) = Returns this ∧
  (∃ before,
     trace (constructor client data) = before ++ [ManagerRegister this; LogError e] ∧
     List.filter is_register before = []) ∧
  List.filter is_network (trace (constructor client data)) = [] ∧
  List.filter is_log_commands (trace (constructor client data)) = [].
Proof.
  intros Hin Hreg.
  rewrite (constructor_registering _ _ _ Hin), Hreg.
  unfold trace; simpl.
  split; [reflexivity|]. split.
  - exists (resolution this ++ [ManagerCheck data]). split.
    + rewrite <- app_assoc. reflexivity.
    + rewrite List.filter_app, filter_resolution; reflexivity.
  - rewrite !List.filter_app, !filter_resolution; split; reflexivity.
Qed.

Lemma constructor_register_failure_returns_early_witness :
  outcome (constructor (Sample.client Sample.conflicting) Sample.close)
    = Returns Sample.close_command ∧
  (∃ before,
     trace (constructor (Sample.client Sample.conflicting) Sample.close)
       = before ++ [ManagerRegister Sample.close_command; LogError Sample.conflict] ∧
     List.filter is_register before = []) ∧
  List.filter is_network (trace (constructor (Sample.client Sample.conflicting) Sample.close))
    = [] ∧
  List.filter is_log_commands
    (trace (constructor (Sample.client Sample.conflicting) Sample.close)) = [].
Proof.
  apply (constructor_register_failure_returns_early
           (Sample.client Sample.conflicting) Sample.close Sample.close_command
           Sample.conflict).
  - vm_compute. apply list_elem_of_further. apply list_elem_of_here.
  - reflexivity.
Defined.





(** C8.  In a command the constructor returns, [internal] and [name] are the
    descriptor's; when [internal] is truthy the [plugin] property is never
    set and the plugin list is not searched; when [internal] is falsy
    [plugin] is the result of [find] over the client's plugins, that is the
    first plugin whose command list holds the command's name, or
    [undefined]. *)
Theorem constructor_plugin_field client data this :
  outcome (constructor client data) = Returns this →
  get_property data "internal" = mret (internal this) ∧
  get_property data "name" = mret (name this) ∧
  (truthy (internal this) = true →
     plugin this = None ∧
     ∀ name, PluginsFind name ∉ trace (constructor client data)) ∧
  (truthy (internal this) = false →
     plugin this = Some (List.find (declares (name this)) (plugins client))) ∧
  (∀ p, plugin this = Some (Some p) →
     truthy (internal this) = false ∧ p ∈ plugins client ∧
     ∃ s list, name this = JStr s ∧ Plugin.commands p = Some list ∧ s ∈ list).
Proof.
  intros Hout.
  destruct (is_object data) eqn:Hobj.
  2:{ destruct (constructor_non_object client data Hobj) as [e He].
      rewrite He in Hout. discriminate Hout. }
  destruct (constructor_run client data Hobj) as (this0 & Hname & Hint & Hplugin & Hrun).
  assert (this0 = this) as ->.
  { rewrite Hrun in Hout. unfold outcome in Hout.
    destruct (check _ data) as [[]|]; [destruct (register _ this0) as [[]|]|];
      simpl in Hout; congruence. }
  split; [exact Hint|]. split; [exact Hname|].
  split; [|split].
  - intros Htruthy. rewrite Htruthy in Hplugin. split; [exact Hplugin|].
    intros n Hin. rewrite Hrun in Hin. unfold resolution, trace in Hin.
    rewrite Htruthy in Hin.
    destruct (check _ data) as [[]|]; [destruct (register _ this) as [[]|]|]; absent Hin.
  - intros Hfalsy. rewrite Hfalsy in Hplugin. exact Hplugin.
  - intros p Hp. rewrite Hp in Hplugin.
    destruct (truthy (internal this)); [discriminate Hplugin|].
    split; [reflexivity|].
    assert (List.find (declares (name this)) (plugins client) = Some p) as Hfind
      by congruence.
    apply List.find_some in Hfind as [Hin Hdecl].
    split; [apply list_elem_of_In; exact Hin|].
    unfold declares in Hdecl.
    destruct (Plugin.commands p) as [list|]; [|discriminate Hdecl].
    destruct (name this) as [| | | |s| |]; try discriminate Hdecl.
    exists s, list. repeat split. apply bool_decide_eq_true in Hdecl. exact Hdecl.
Qed.

Lemma constructor_plugin_field_witness :
  plugin Sample.play_command
    = Some (List.find (declares (JStr "play")) [Sample.quiet; Sample.music]) ∧
  plugin Sample.close_command = None.
Proof.
  split.
  - apply (constructor_plugin_field
             (Sample.client Sample.accepting) Sample.play Sample.play_command);
      reflexivity.
  - apply (constructor_plugin_field
             (Sample.client Sample.accepting) Sample.close Sample.close_command);
      reflexivity.
Defined.

(** ** The response helpers *)

Lemma flags_spec_ephemeral ephemeral_bit secret :
  carries_ephemeral ephemeral_bit (flags_spec ephemeral_bit secret) = secret.
Proof.
  unfold carries_ephemeral, flags_spec. destruct secret.
  - rewrite Z.shiftl_spec by lia. rewrite Z.sub_diag. reflexivity.
  - apply Z.bits_0.
Qed.

(** When the formatter rejects, [sendResponse] rejects with the same value
    and posts nothing. *)
Lemma sendResponse_formatter_rejects flags createMessage client interaction content secret e :
  typeof content = "object" →
  createMessage client (field interaction "channel_id") content = Throws e →
  outcome (sendResponse flags createMessage client interaction content secret) = Throws e ∧
  List.filter is_network
    (trace (sendResponse flags createMessage client interaction content secret)) = [].
Proof.
  intros Htype Hreject. unfold sendResponse.
  rewrite Htype, Hreject. split; reflexivity.
Qed.

(** C7.  [deferResponse] makes one call, a POST to the callback of the
    interaction whose payload has type 5; with the [flags] helper as the
    spec describes it, the payload's flags carry the ephemeral flag exactly
    when [secret] is true. *)
Theorem deferResponse_type_5 ephemeral_bit client interaction secret :
  ∃ payload : gmap string JSValue,
    deferResponse (flags_spec ephemeral_bit) client interaction secret
      = ([Api POST
            (InteractionCallback (field interaction "id") (field interaction "token"))
            (JObject {[ "data" := JObject payload ]})],
         Returns ()) ∧
    payload !! "type" = Some (JNum 5) ∧
    carries_ephemeral ephemeral_bit (field payload "flags") = secret.
Proof.
  eexists. split; [reflexivity|]. split; [reflexivity|].
  apply flags_spec_ephemeral.
Qed.

(** C5.  [sendResponse] with a content whose [typeof] is not ["object"]
    makes one call, a POST to the callback of the interaction whose payload
    has type 4, the content under [content], and no [data] field.  With a
    content whose [typeof] is ["object"], once the formatter [createMessage]
    has produced a message, the one network call is that POST with a
    payload of type 4, the formatter's message under [data], and
    [flags(secret)] under [flags].  Both cases hold for either value of
    [secret]. *)
Theorem sendResponse_payload flags createMessage client interaction secret :
  (∀ content,
     typeof content ≠ "object" →
     ∃ payload : gmap string JSValue,
       sendResponse flags createMessage client interaction content secret
         = ([Api POST
               (InteractionCallback (field interaction "id") (field interaction "token"))
               (JObject {[ "data" := JObject payload ]})],
            Returns ()) ∧
       payload !! "type" = Some (JNum 4) ∧
       payload !! "content" = Some content ∧
       payload !! "data" = None) ∧
  (∀ content message,
     typeof content = "object" →
     createMessage client (field interaction "channel_id") content = Returns message →
     ∃ payload : gmap string JSValue,
       outcome (sendResponse flags createMessage client interaction content secret)
         = Returns () ∧
       List.filter is_network
         (trace (sendResponse flags createMessage client interaction content secret))
         = [Api POST
              (InteractionCallback (field interaction "id") (field interaction "token"))
              (JObject {[ "data" := JObject payload ]})] ∧
       payload !! "type" = Some (JNum 4) ∧
       payload !! "data" = Some message ∧
       payload !! "flags" = Some (flags secret)).
Proof.
  split.
  - intros content Htype. unfold sendResponse.
    destruct (String.eqb_spec (typeof content) "object") as [Heq|_]; [contradiction|].
    eexists. split; [reflexivity|]. repeat split.
  - intros content message Htype Hmessage. unfold sendResponse.
    rewrite Htype, Hmessage. simpl.
    eexists. split; [reflexivity|]. split; [reflexivity|]. repeat split.
Qed.

Lemma sendResponse_payload_witness :
  (∃ payload : gmap string JSValue,
     sendResponse Sample.flags Sample.createMessage (Sample.client Sample.accepting)
       Sample.interaction (JStr "hello") false
       = ([Api POST Sample.callback (JObject {[ "data" := JObject payload ]})],
          Returns ()) ∧
     payload !! "type" = Some (JNum 4) ∧
     payload !! "content" = Some (JStr "hello") ∧
     payload !! "data" = None) ∧
  (∃ payload : gmap string JSValue,
     outcome (sendResponse Sample.flags Sample.createMessage
                (Sample.client Sample.accepting) Sample.interaction Sample.embed true)
       = Returns () ∧
     List.filter is_network
       (trace (sendResponse Sample.flags Sample.createMessage
                 (Sample.client Sample.accepting) Sample.interaction Sample.embed true))
       = [Api POST Sample.callback (JObject {[ "data" := JObject payload ]})] ∧
     payload !! "type" = Some (JNum 4) ∧
     payload !! "data" = Some (JObject {[ "embeds" := JArray [Sample.embed] ]}) ∧
     payload !! "flags" = Some (JNum 64)).
Proof.
  split.
  - apply (sendResponse_payload Sample.flags Sample.createMessage
             (Sample.client Sample.accepting) Sample.interaction false).
    discriminate.
  - apply (sendResponse_payload Sample.flags Sample.createMessage
             (Sample.client Sample.accepting) Sample.interaction true);
      reflexivity.
Defined.

(** C6.  [editResponse] makes one call, a PATCH of the interaction's
    messages.  With a content whose [typeof] is ["object"] the body's only
    field is [embeds]; otherwise its only field is [content].  So the body
    never has both, and never a [flags] field. *)
Theorem editResponse_body client interaction content :
  ∃ body : gmap string JSValue,
    editResponse client interaction content
      = ([Api PATCH
            (InteractionMessages (field interaction "id") (field interaction "token"))
            (JObject body)],
         Returns ()) ∧
    (typeof content = "object" →
       body !! "embeds" = Some content ∧ ∀ key, key ≠ "embeds" → body !! key = None) ∧
    (typeof content ≠ "object" →
       body !! "content" = Some content ∧ ∀ key, key ≠ "content" → body !! key = None).
Proof.
  unfold editResponse.
  destruct (String.eqb_spec (typeof content) "object") as [Heq|Hne].
  - exists {[ "embeds" := content ]}. split; [reflexivity|]. split; [|contradiction].
    intros _. split; [apply lookup_singleton_eq|].
    intros key Hkey. apply lookup_singleton_ne. congruence.
  - exists {[ "content" := content ]}. split; [reflexivity|]. split; [contradiction|].
    intros _. split; [apply lookup_singleton_eq|].
    intros key Hkey. apply lookup_singleton_ne. congruence.
Qed.

Lemma editResponse_body_witness :
  ∃ body : gmap string JSValue,
    editResponse (Sample.client Sample.accepting) Sample.interaction Sample.embed
      = ([Api PATCH (InteractionMessages (JStr "77") (JStr "tok")) (JObject body)],
         Returns ()) ∧
    body !! "embeds" = Some Sample.embed ∧
    body !! "content" = None ∧
    body !! "flags" = None.
Proof.
  destruct (editResponse_body (Sample.client Sample.accepting) Sample.interaction
              Sample.embed) as (body & Hcall & Hobject & _).
  exists body. split; [exact Hcall|].
  destruct (Hobject eq_refl) as [Hembeds Hothers].
  split; [exact Hembeds|]. split; apply Hothers; discriminate.
Defined.

(** C10.  [null] has [typeof] ["object"], so it goes the way of structured
    content: [sendResponse] hands it to the formatter and posts a payload
    with the formatter's message under [data] and no [content] field, and
    [editResponse] patches with [embeds] set to [null] and no [content]
    field. *)
Theorem null_content_is_structured flags createMessage client interaction secret message :
  createMessage client (field interaction "channel_id") JNull = Returns message →
  (∃ payload : gmap string JSValue,
     sendResponse flags createMessage client interaction JNull secret
       = ([CreateMessage (field interaction "channel_id") JNull;
           Api POST
             (InteractionCallback (field interaction "id") (field interaction "token"))
             (JObject {[ "data" := JObject payload ]})],
          Returns ()) ∧
     payload !! "data" = Some message ∧
     payload !! "content" = None) ∧
  (∃ body : gmap string JSValue,
     editResponse client interaction JNull
       = ([Api PATCH
             (InteractionMessages (field interaction "id") (field interaction "token"))
             (JObject body)],
          Returns ()) ∧
     body !! "embeds" = Some JNull ∧
     body !! "content" = None).
Proof.
  intros Hmessage. split.
  - unfold sendResponse. simpl. rewrite Hmessage. simpl.
    eexists. split; [reflexivity|]. split; reflexivity.
  - exists {[ "embeds" := JNull ]}. repeat split.
Qed.

Lemma null_content_is_structured_witness :
  (∃ payload : gmap string JSValue,
     sendResponse Sample.flags Sample.createMessage (Sample.client Sample.accepting)
       Sample.interaction JNull false
       = ([CreateMessage (JStr "5") JNull;
           Api POST Sample.callback (JObject {[ "data" := JObject payload ]})],
          Returns ()) ∧
     payload !! "data" = Some (JObject {[ "embeds" := JArray [JNull] ]}) ∧
     payload !! "content" = None) ∧
  (∃ body : gmap string JSValue,
     editResponse (Sample.client Sample.accepting) Sample.interaction JNull
       = ([Api PATCH (InteractionMessages (JStr "77") (JStr "tok")) (JObject body)],
          Returns ()) ∧
     body !! "embeds" = Some JNull ∧
     body !! "content" = None).
Proof.
  apply (null_content_is_structured Sample.flags Sample.createMessage
           (Sample.client Sample.accepting) Sample.interaction false
           (JObject {[ "embeds" := JArray [JNull] ]})).
  reflexivity.
Defined.

(** ** Further properties of the constructor *)

(** What a returned command says about the run that built it. *)
Lemma constructor_returned client data this :
  outcome (constructor client data) = Returns this →
  is_object data = true ∧
  plugin this = (if truthy (internal this) then None
                 else Some (List.find (declares (name this)) (plugins client))) ∧
  constructor client data =
    match check (commands client) data with
    | Throws e => (resolution this ++ [ManagerCheck data], Throws e)
    | Returns _ =>
        match register (commands client) this with
        | Throws e =>
            (resolution this ++ [ManagerCheck data; ManagerRegister this; LogError e],
             Returns this)
        | Returns _ =>
            (resolution this ++ [ManagerCheck data; ManagerRegister this;
                                 publish client data; confirmation this],
             Returns this)
        end
    end.
Proof.
  intros Hout.
  destruct (is_object data) eqn:Hobj.
  2:{ destruct (constructor_non_object client data Hobj) as [e He].
      rewrite He in Hout. discriminate Hout. }
  destruct (constructor_run client data Hobj) as (this0 & _ & _ & Hplugin & Hrun).
  assert (this0 = this) as ->; [|repeat split; assumption].
  rewrite Hrun in Hout. unfold outcome in Hout.
  destruct (check _ data) as [[]|]; [destruct (register _ this0) as [[]|]|];
    simpl in Hout; congruence.
Qed.

(** [List.find] returns the first element that satisfies the test. *)
Lemma find_first {A} (test : A → bool) (l : list A) (x : A) :
  List.find test l = Some x →
  ∃ before after,
    l = before ++ x :: after ∧ test x = true ∧
    ∀ y, y ∈ before → test y = false.
Proof.
  induction l as [|a l IH]; simpl; [discriminate|].
  destruct (test a) eqn:Ha.
  - intros [= ->]. exists [], l. repeat split; [assumption|].
    intros y Hy. inversion Hy.
  - intros Hfind. destruct (IH Hfind) as (before & after & -> & Hx & Hbefore).
    exists (a :: before), after. repeat split; [assumption|].
    intros y Hy. apply elem_of_cons in Hy as [->|Hy]; [assumption|].
    apply Hbefore, Hy.
Qed.

Lemma find_none_iff {A} (test : A → bool) (l : list A) :
  List.find test l = None ↔ ∀ y, y ∈ l → test y = false.
Proof.
  split.
  - intros Hnone y Hy. apply (List.find_none test l Hnone), list_elem_of_In, Hy.
  - intros Hall. destruct (List.find test l) as [x|] eqn:Hfind; [|reflexivity].
    apply List.find_some in Hfind as [Hin Hx].
    apply list_elem_of_In, Hall in Hin. congruence.
Qed.

(** X1.  The six properties of a returned command are those of the
    descriptor, [undefined] standing for a property the descriptor does not
    have; properties of the descriptor beyond the six are not copied.  An
    array passes the guard and yields a command whose six properties are
    all [undefined]. *)
Theorem constructor_copies_descriptor client data this :
  outcome (constructor client data) = Returns this →
  (∀ props, data = JObject props →
     name this = field props "name" ∧
     description this = field props "description" ∧
     staff_only this = field props "staff_only" ∧
     permissions this = field props "permissions" ∧
     options this = field props "options" ∧
     internal this = field props "internal") ∧
  (∀ items, data = JArray items →
     name this = JUndefined ∧ description this = JUndefined ∧
     staff_only this = JUndefined ∧ permissions this = JUndefined ∧
     options this = JUndefined ∧ internal this = JUndefined).
Proof.
  intros Hout. split.
  - intros props ->. revert Hout. unfold constructor, outcome, field. simpl.
    destruct (truthy (default JUndefined (props !! "internal"))); simpl;
      (destruct (check (commands client) (JObject props)) as [[]|];
       [|discriminate]);
      destruct (register (commands client) _) as [[]|]; simpl;
      intros [= <-]; repeat split.
  - intros items ->. revert Hout. unfold constructor, outcome. simpl.
    destruct (check (commands client) (JArray items)) as [[]|]; [|discriminate].
    destruct (register (commands client) _) as [[]|]; simpl;
      intros [= <-]; repeat split.
Qed.

Lemma constructor_copies_descriptor_witness :
  ∃ this,
    outcome (constructor (Sample.client Sample.conflicting) Edge.full) = Returns this ∧
    name this = JStr "stop" ∧
    description this = JStr "Stop the song" ∧
    staff_only this = JBool true ∧
    permissions this = JArray [JStr "MANAGE_GUILD"] ∧
    options this = JArray [] ∧
    internal this = JNum 0.
Proof.
  eexists. split; [reflexivity|].
  refine (proj1 (constructor_copies_descriptor
                   (Sample.client Sample.conflicting) Edge.full _ eq_refl) _ eq_refl).
Defined.

(** X2.  The guard's error names the type it met: for a descriptor whose
    [typeof] is not ["object"] the constructor throws the [TypeError]
    "Expected type of data to be an object, got <typeof data>" and has
    called nothing.  [null] is not stopped by the guard: the error it
    meets is never the guard's. *)
Theorem constructor_guard_message client data :
  (typeof data ≠ "object" →
   constructor client data
     = ([], Throws (TypeError ("Expected type of data to be an object, got "
                               +:+ typeof data)))) ∧
  (∀ type_name,
     constructor client JNull
       ≠ ([], Throws (TypeError ("Expected type of data to be an object, got "
                                 +:+ type_name)))).
Proof.
  split.
  - destruct data; simpl; intros Hne; try reflexivity; contradiction.
  - intros type_name. simpl. discriminate.
Qed.

Lemma constructor_guard_message_witness :
  constructor (Sample.client Sample.accepting) (JBool true)
    = ([], Throws (TypeError "Expected type of data to be an object, got boolean")).
Proof.
  apply (constructor_guard_message (Sample.client Sample.accepting) (JBool true)).
  discriminate.
Defined.






(** X6.  A descriptor that [manager.check] rejects is never registered,
    never published and leaves no line in the logs: after the plugin
    lookup, the check is the only call the constructor makes. *)
Theorem constructor_invalid_never_registered client data e :
  is_object data = true →
  check (commands client) data = Throws e →
  List.filter is_register (trace (constructor client data)) = [] ∧
  List.filter is_network (trace (constructor client data)) = [] ∧
  List.filter is_log_error (trace (constructor client data)) = [] ∧
  List.filter is_log_commands (trace (constructor client data)) = [] ∧
  (length (trace (constructor client data)) ≤ 2)%nat.
Proof.
  intros Hobj Hcheck.
  destruct (constructor_run client data Hobj) as (this & _ & _ & _ & Hrun).
  rewrite Hrun, Hcheck. clear Hrun. unfold trace. simpl.
  rewrite !List.filter_app, !filter_resolution by reflexivity.
  repeat split. unfold resolution.
  destruct (truthy (internal this)); simpl; lia.
Qed.

Lemma constructor_invalid_never_registered_witness :
  List.filter is_register (trace (constructor (Sample.client Sample.rejecting) Sample.play))
    = [] ∧
  List.filter is_network (trace (constructor (Sample.client Sample.rejecting) Sample.play))
    = [] ∧
  List.filter is_log_error (trace (constructor (Sample.client Sample.rejecting) Sample.play))
    = [] ∧
  List.filter is_log_commands
    (trace (constructor (Sample.client Sample.rejecting) Sample.play)) = [] ∧
  (length (trace (constructor (Sample.client Sample.rejecting) Sample.play)) ≤ 2)%nat.
Proof.
  apply (constructor_invalid_never_registered
           (Sample.client Sample.rejecting) Sample.play Sample.invalid);
    reflexivity.
Defined.

(** X7.  When several plugins declare the command, the constructor keeps
    the first: the plugin of a returned command declares the command's
    name, and no plugin listed before it does. *)
Theorem constructor_plugin_is_first client data this p :
  outcome (constructor client data) = Returns this →
  plugin this = Some (Some p) →
  ∃ before after,
    plugins client = before ++ p :: after ∧
    declares (name this) p = true ∧
    ∀ q, q ∈ before → declares (name this) q = false.
Proof.
  intros Hout Hp.
  destruct (constructor_returned client data this Hout) as (_ & Hplugin & _).
  rewrite Hp in Hplugin.
  destruct (truthy (internal this)); [discriminate Hplugin|].
  apply find_first. congruence.
Qed.

Lemma constructor_plugin_is_first_witness :
  ∃ before after,
    [Sample.quiet; Sample.music; Edge.radio] = before ++ Sample.music :: after ∧
    declares (JStr "play") Sample.music = true ∧
    ∀ q, q ∈ before → declares (JStr "play") q = false.
Proof.
  apply (constructor_plugin_is_first
           (Edge.client Sample.accepting) Sample.play Edge.play_found Sample.music);
    reflexivity.
Defined.

(** X8.  For a command that is not internal, [plugin] is [undefined]
    exactly when no plugin of the client declares the command's name; that
    is so whenever the descriptor's name is not a string. *)
Theorem constructor_plugin_undefined_iff client data this :
  outcome (constructor client data) = Returns this →
  truthy (internal this) = false →
  (plugin this = Some None ↔
   ∀ q, q ∈ plugins client → declares (name this) q = false) ∧
  ((∀ s, name this ≠ JStr s) → plugin this = Some None).
Proof.
  intros Hout Hfalsy.
  destruct (constructor_returned client data this Hout) as (_ & Hplugin & _).
  rewrite Hfalsy in Hplugin. rewrite Hplugin.
  assert (Some (List.find (declares (name this)) (plugins client)) = Some None ↔
          ∀ q, q ∈ plugins client → declares (name this) q = false) as Hiff.
  { rewrite <- find_none_iff. split; congruence. }
  split; [exact Hiff|].
  intros Hname. apply Hiff. intros q _. unfold declares.
  destruct (Plugin.commands q); [|reflexivity].
  destruct (name this) as [| | | |s| |]; try reflexivity.
  destruct (Hname s eq_refl).
Qed.

Lemma constructor_plugin_undefined_iff_witness :
  plugin Edge.nameless_command = Some None.
Proof.
  apply (constructor_plugin_undefined_iff
           (Sample.client Sample.accepting) Edge.nameless Edge.nameless_command);
    [reflexivity | reflexivity | discriminate].
Defined.






(** ** Further properties of the response helpers *)

(** X10.  [sendResponse] hands a content whose [typeof] is ["object"] to
    the formatter exactly once, with the interaction's [channel_id], and
    before any network call; it never calls the formatter on other
    content.  [editResponse] never calls the formatter: it sends structured
    content as it is, and so does [deferResponse] not call it. *)
Theorem formatter_called_by_sendResponse_only flags createMessage client interaction
    content secret :
  (typeof content = "object" →
   ∃ rest,
     trace (sendResponse flags createMessage client interaction content secret)
       = CreateMessage (field interaction "channel_id") content :: rest ∧
     List.filter is_formatter rest = []) ∧
  (typeof content ≠ "object" →
   List.filter is_formatter
     (trace (sendResponse flags createMessage client interaction content secret)) = []) ∧
  List.filter is_formatter (trace (editResponse client interaction content)) = [] ∧
  List.filter is_formatter (trace (deferResponse flags client interaction secret)) = [].
Proof.
  split; [|split; [|split]].
  - intros Htype. unfold sendResponse. rewrite Htype.
    destruct (createMessage client (field interaction "channel_id") content);
      eexists; split; reflexivity.
  - intros Htype. unfold sendResponse.
    destruct (String.eqb_spec (typeof content) "object"); [contradiction|reflexivity].
  - unfold editResponse.
    destruct (String.eqb (typeof content) "object"); reflexivity.
  - reflexivity.
Qed.

Lemma formatter_called_by_sendResponse_only_witness :
  (∃ rest,
     trace (sendResponse Sample.flags Edge.createMessage (Sample.client Sample.accepting)
              Sample.interaction Sample.embed true)
       = CreateMessage (JStr "5") Sample.embed :: rest ∧
     List.filter is_formatter rest = []) ∧
  List.filter is_formatter
    (trace (sendResponse Sample.flags Sample.createMessage (Sample.client Sample.accepting)
              Sample.interaction (JStr "hello") true)) = [].
Proof.
  split.
  - apply (formatter_called_by_sendResponse_only Sample.flags Edge.createMessage
             (Sample.client Sample.accepting) Sample.interaction Sample.embed true).
    reflexivity.
  - destruct (formatter_called_by_sendResponse_only Sample.flags Sample.createMessage
                (Sample.client Sample.accepting) Sample.interaction (JStr "hello") true)
      as (_ & Hplain & _).
    apply Hplain. discriminate.
Defined.

(** X11.  The only way [sendResponse] fails is a rejection of the
    formatter: it rejects with [e] if and only if the content has [typeof]
    ["object"] and the formatter rejected with [e].  It makes one network
    call when it fulfils and none when it rejects. *)
Theorem sendResponse_rejects_iff flags createMessage client interaction content secret :
  (∀ e,
     outcome (sendResponse flags createMessage client interaction content secret)
       = Throws e ↔
     typeof content = "object" ∧
     createMessage client (field interaction "channel_id") content = Throws e) ∧
  length (List.filter is_network
            (trace (sendResponse flags createMessage client interaction content secret)))
    = match outcome (sendResponse flags createMessage client interaction content secret) with
      | Returns _ => 1%nat
      | Throws _ => 0%nat
      end.
Proof.
  unfold sendResponse.
  destruct (String.eqb_spec (typeof content) "object") as [Htype|Htype].
  - destruct (createMessage client (field interaction "channel_id") content) as [m|e'];
      simpl; (split; [|reflexivity]); intros e; split.
    + discriminate.
    + intros [_ Hrej]. discriminate Hrej.
    + intros [= ->]. split; [exact Htype|reflexivity].
    + intros [_ [= ->]]. reflexivity.
  - simpl. split; [|reflexivity]. intros e. split; [discriminate|].
    intros [Heq _]. contradiction.
Qed.

Lemma sendResponse_rejects_iff_witness :
  outcome (sendResponse Sample.flags Edge.createMessage (Sample.client Sample.accepting)
             Sample.interaction Sample.embed false)
    = Throws Edge.unavailable.
Proof.
  apply (sendResponse_rejects_iff Sample.flags Edge.createMessage
           (Sample.client Sample.accepting) Sample.interaction Sample.embed false).
  split; reflexivity.
Defined.

(** X12.  The payloads have the fields the code writes and no other: that
    of [deferResponse] has [type] and [flags]; that of [sendResponse] has
    [type], [flags] and [content] for plain content, and [type], [flags]
    and [data] for structured content, with the same [flags] value,
    [flags(secret)], in both.  The object handed to [post] has the payload
    under [data] and nothing else. *)
Theorem callback_payload_fields flags createMessage client interaction content secret :
  (∃ payload : gmap string JSValue,
     trace (deferResponse flags client interaction secret)
       = [Api POST
            (InteractionCallback (field interaction "id") (field interaction "token"))
            (JObject {[ "data" := JObject payload ]})] ∧
     dom payload = {[ "type"; "flags" ]}) ∧
  (typeof content ≠ "object" →
   ∃ payload : gmap string JSValue,
     trace (sendResponse flags createMessage client interaction content secret)
       = [Api POST
            (InteractionCallback (field interaction "id") (field interaction "token"))
            (JObject {[ "data" := JObject payload ]})] ∧
     dom payload = {[ "type"; "flags"; "content" ]} ∧
     payload !! "flags" = Some (flags secret)) ∧
  (∀ message,
     typeof content = "object" →
     createMessage client (field interaction "channel_id") content = Returns message →
     ∃ payload : gmap string JSValue,
       List.filter is_network
         (trace (sendResponse flags createMessage client interaction content secret))
         = [Api POST
              (InteractionCallback (field interaction "id") (field interaction "token"))
              (JObject {[ "data" := JObject payload ]})] ∧
       dom payload = {[ "type"; "flags"; "data" ]} ∧
       payload !! "content" = None).
Proof.
  split; [|split].
  - eexists. split; [reflexivity|].
    rewrite !dom_insert_L, dom_empty_L. set_solver.
  - intros Htype. unfold sendResponse.
    destruct (String.eqb_spec (typeof content) "object"); [contradiction|].
    eexists. split; [reflexivity|]. split; [|reflexivity].
    rewrite !dom_insert_L, dom_empty_L. set_solver.
  - intros message Htype Hmessage. unfold sendResponse.
    rewrite Htype, Hmessage. simpl.
    eexists. split; [reflexivity|]. split; [|reflexivity].
    rewrite !dom_insert_L, dom_empty_L. set_solver.
Qed.

Lemma callback_payload_fields_witness :
  (∃ payload : gmap string JSValue,
     trace (sendResponse Sample.flags Sample.createMessage (Sample.client Sample.accepting)
              Sample.interaction (JNum 7) true)
       = [Api POST Sample.callback (JObject {[ "data" := JObject payload ]})] ∧
     dom payload = {[ "type"; "flags"; "content" ]} ∧
     payload !! "flags" = Some (JNum 64)) ∧
  (∃ payload : gmap string JSValue,
     List.filter is_network
       (trace (sendResponse Sample.flags Sample.createMessage
                 (Sample.client Sample.accepting) Sample.interaction (JArray []) false))
       = [Api POST Sample.callback (JObject {[ "data" := JObject payload ]})] ∧
     dom payload = {[ "type"; "flags"; "data" ]} ∧
     payload !! "content" = None).
Proof.
  split.
  - destruct (callback_payload_fields Sample.flags Sample.createMessage
                (Sample.client Sample.accepting) Sample.interaction (JNum 7) true)
      as (_ & Hplain & _).
    apply Hplain. discriminate.
  - destruct (callback_payload_fields Sample.flags Sample.createMessage
                (Sample.client Sample.accepting) Sample.interaction (JArray []) false)
      as (_ & _ & Hstructured).
    apply (Hstructured (JObject {[ "embeds" := JArray [JArray []] ]})); reflexivity.
Defined.

(** X13.  The helpers stay away from the command manager, the plugins and
    the logger: each of their calls is a network call or a call to the
    formatter.  [execute], as the base class has it, makes no call at all
    and fulfils. *)
Theorem helpers_call_api_and_formatter_only flags createMessage client interaction
    content secret ev :
  (ev ∈ trace (deferResponse flags client interaction secret) → is_network ev = true) ∧
  (ev ∈ trace (sendResponse flags createMessage client interaction content secret) →
   is_network ev = true ∨ is_formatter ev = true) ∧
  (ev ∈ trace (editResponse client interaction content) → is_network ev = true) ∧
  (∀ data raw, execute data raw = ([], Returns ())).
Proof.
  split; [|split; [|split]].
  - intros Hin. apply list_elem_of_singleton in Hin as ->. reflexivity.
  - unfold sendResponse.
    destruct (String.eqb (typeof content) "object");
      [destruct (createMessage client (field interaction "channel_id") content)|];
      unfold trace; simpl; intros Hin;
      repeat (apply elem_of_cons in Hin as [->|Hin]);
      solve [left; reflexivity | right; reflexivity | inversion Hin].
  - unfold editResponse.
    destruct (String.eqb (typeof content) "object");
      intros Hin; apply list_elem_of_singleton in Hin as ->; reflexivity.
  - reflexivity.
Qed.

Lemma helpers_call_api_and_formatter_only_witness :
  is_network
    (Api PATCH (InteractionMessages (JStr "77") (JStr "tok"))
       (JObject {[ "content" := JStr "done" ]})) = true.
Proof.
  destruct (helpers_call_api_and_formatter_only Sample.flags Sample.createMessage
              (Sample.client Sample.accepting) Sample.interaction (JStr "done") false
              (Api PATCH (InteractionMessages (JStr "77") (JStr "tok"))
                 (JObject {[ "content" := JStr "done" ]})))
    as (_ & _ & Hedit & _).
  apply Hedit. vm_compute. apply list_elem_of_here.
Defined.

(** X14.  Of an interaction the helpers read [id] and [token], and
    [sendResponse] also [channel_id]; every other field is ignored: two
    interactions that agree on these fields get the same calls and the
    same outcome. *)
Theorem helpers_read_id_and_token flags createMessage client
    (interaction1 interaction2 : Interaction) content secret :
  field interaction1 "id" = field interaction2 "id" →
  field interaction1 "token" = field interaction2 "token" →
  deferResponse flags client interaction1 secret
    = deferResponse flags client interaction2 secret ∧
  editResponse client interaction1 content = editResponse client interaction2 content ∧
  (field interaction1 "channel_id" = field interaction2 "channel_id" →
   sendResponse flags createMessage client interaction1 content secret
     = sendResponse flags createMessage client interaction2 content secret).
Proof.
  intros Hid Htoken. unfold deferResponse, editResponse, sendResponse.
  rewrite Hid, Htoken. repeat split.
  intros Hchannel. rewrite Hchannel. reflexivity.
Qed.

Lemma helpers_read_id_and_token_witness :
  deferResponse Sample.flags (Sample.client Sample.accepting) Edge.interaction true
    = deferResponse Sample.flags (Sample.client Sample.accepting) Sample.interaction true ∧
  editResponse (Sample.client Sample.accepting) Edge.interaction Sample.embed
    = editResponse (Sample.client Sample.accepting) Sample.interaction Sample.embed ∧
  (field Edge.interaction "channel_id" = field Sample.interaction "channel_id" →
   sendResponse Sample.flags Sample.createMessage (Sample.client Sample.accepting)
     Edge.interaction Sample.embed true
     = sendResponse Sample.flags Sample.createMessage (Sample.client Sample.accepting)
         Sample.interaction Sample.embed true).
Proof.
  apply (helpers_read_id_and_token Sample.flags Sample.createMessage
           (Sample.client Sample.accepting) Edge.interaction Sample.interaction
           Sample.embed true);
    reflexivity.
Defined.
